(** * A schema registry served over a vector collection

    Shallow embedding of the ChromaDB service: the request models of
    [app/models.py], the endpoints of [main.py], and the registry manager
    of [app/registry.py].  The vector collection and the embedding model
    are external collaborators; they enter through the class [Backend]
    and through the collection operations of section [Collection]. *)

From Stdlib Require Import ZArith Ascii String List.
From stdpp Require Import base option list gmap strings sorting fin_maps.

Local Open Scope string_scope.

(** ** Values *)

(** [Any] of the request models: a JSON value.  A float is kept as its
    bit pattern, nothing here computes with it. *)
#[warnings="-register-all"] Inductive Json : Type :=
| JNull
| JBool (b : bool)
| JInt (z : Z)
| JFloat (bits : Z)
| JStr (s : string)
| JList (items : list Json)
| JDict (fields : list (string * Json)).

(** A metadata value of the collection: the store keeps flat key/value
    metadata and refuses nested values before anything is written. *)
Inductive Scalar : Type :=
| SStr (s : string)
| SInt (z : Z)
| SFloat (bits : Z)
| SBool (b : bool).

Global Instance Scalar_eq_dec : EqDecision Scalar.
Proof. solve_decision. Defined.

Abbreviation Metadata := (gmap string Scalar).

(** [Dict[str, Any]] of [TableSchemaRequest.table_schema]. *)
Abbreviation SchemaObject := (gmap string Json).

(** ** The external collaborators *)

(** What the service is started with.  [embedding_model_encode] is
    [embedding_model.encode(text).tolist()], [None] when the model raises.
    [distance] and [dist_le] are the similarity measure of the collection
    and its order.  [ne_complement] is the one behaviour of the store that
    its contract leaves open: whether a [$ne] filter also selects the entries
    that carry no string under the key (the filter is the complement of
    [$eq]) or only compares the entries that do.  [py_repr] is Python's [str]
    on a JSON value that is not a string. *)
Class Backend : Type := {
  Emb : Type;
  embedding_model_encode : string -> option Emb;
  Dist : Type;
  distance : Emb -> Emb -> Dist;
  dist_le : Dist -> Dist -> bool;
  dist_le_total : forall x y, dist_le x y = true \/ dist_le y x = true;
  dist_le_trans : forall x y z,
      dist_le x y = true -> dist_le y z = true -> dist_le x z = true;
  ne_complement : bool;
  py_repr : Json -> string
}.

(** Python's [str(v)] as the f-strings of [main.py] apply it. *)
Definition py_str {backend : Backend} (v : Json) : string :=
  match v with
  | JStr s => s
  | _ => py_repr v
  end.

(** ** Errors and responses *)

(** The exceptions that can reach an endpoint's [except Exception]. *)
Inductive Error : Type :=
| InvalidSchemaError
| EmbeddingError
| KeyError (key : string)
| IndexError
| ValidationError (loc : string).

(** What a client receives: a body with its status code,
    [HTTPException(status_code, detail)] where [detail] is the text before
    the colon and [cause] the exception whose [str] follows it, or the 422
    answer of the framework when the request model refuses the body. *)
Inductive Response (A : Type) : Type :=
| Success (status_code : Z) (body : A)
| HTTPException (status_code : Z) (detail : string) (cause : option Error)
| RequestValidationError (loc : string).

Arguments Success {A} status_code body.
Arguments HTTPException {A} status_code detail cause.
Arguments RequestValidationError {A} loc.

Definition HTTP_200_OK : Z := 200.
Definition HTTP_201_CREATED : Z := 201.
Definition HTTP_404_NOT_FOUND : Z := 404.
Definition HTTP_500_INTERNAL_SERVER_ERROR : Z := 500.

Definition is_success {A} (r : Response A) : bool :=
  match r with
  | Success _ _ => true
  | _ => false
  end.

(** ** The vector collection

    The collection is the store the service is handed at startup.  Its
    operations are modelled by their contract: entries keyed by id, [upsert]
    replacing, [add] inserting only, [delete] skipping what is not stored,
    [query] ranking by distance. *)

Section Collection.
Context {backend : Backend}.

(** One stored tuple; its id is the key it is stored under.  [metadata]
    is [None] for a document added without metadata. *)
Record Entry : Type := {
  document : string;
  metadata : option Metadata;
  embedding : Emb
}.

(** The filter document [{key: {"$ne": value}}], the only one the
    service builds. *)
Record Where : Type := { where_key : string; where_ne : string }.

(** What an entry carries under a metadata key, [None] when it has no
    metadata or not that key. *)
Definition metadata_get (key : string) (e : Entry) : option Scalar :=
  metadata e ≫= (.!! key).

(** Whether the filter selects an entry. *)
Definition where_matches (w : Where) (e : Entry) : bool :=
  match metadata_get (where_key w) e with
  | Some (SStr s) => negb (String.eqb s (where_ne w))
  | _ => ne_complement
  end.

(** [collection.upsert]: insert, or replace the whole entry. *)
Definition coll_upsert (id : string) (e : Entry)
    (c : gmap string Entry) : gmap string Entry :=
  <[id := e]> c.

(** [collection.add]: insert only.  An id that is already stored is
    skipped: nothing is written for it and nothing is raised. *)
Definition coll_add (id : string) (e : Entry)
    (c : gmap string Entry) : gmap string Entry :=
  match c !! id with
  | None => <[id := e]> c
  | Some _ => c
  end.

(** [collection.delete(ids=...)]: an id that is not stored is skipped. *)
Definition coll_delete_ids (ids : list string)
    (c : gmap string Entry) : gmap string Entry :=
  foldr delete c ids.

(** [collection.delete(where=...)]. *)
Definition coll_delete_where (w : Where)
    (c : gmap string Entry) : gmap string Entry :=
  filter (fun kv => where_matches w kv.2 = false) c.

(** [collection.get(ids=[id])]. *)
Definition coll_get (id : string) (c : gmap string Entry) : option Entry :=
  c !! id.

(** [collection.get()]: everything that is stored. *)
Definition coll_get_all (c : gmap string Entry) : list (string * Entry) :=
  map_to_list c.

(** [collection.count()]. *)
Definition coll_count (c : gmap string Entry) : nat := size c.

(** The number of stored tuples that carry a given id. *)
Definition occurrences (id : string) (c : gmap string Entry) : nat :=
  length (filter (fun kv => kv.1 = id) (map_to_list c)).

(** The order of the similarity search: nearer to the query first. *)
Definition nearer (q : Emb) (a b : string * Entry) : Prop :=
  dist_le (distance q (embedding a.2)) (distance q (embedding b.2)) = true.

Global Instance nearer_dec q a b : Decision (nearer q a b).
Proof. unfold nearer. apply _. Defined.

(** All entries in ranking order. *)
Definition ranked (q : Emb) (c : gmap string Entry) : list (string * Entry) :=
  merge_sort (nearer q) (map_to_list c).

(** What [collection.query] returns: one inner list per query embedding in
    each column. *)
Record QueryColumns : Type := {
  col_ids : list (list string);
  col_documents : list (list string);
  col_metadatas : list (list (option Metadata));
  col_distances : list (list Dist)
}.

(** [collection.query(query_embeddings=[q], n_results=k)]: the [k] nearest
    entries, all of them when the collection holds fewer. *)
Definition coll_query (q : Emb) (k : Z) (c : gmap string Entry) : QueryColumns :=
  let rows := take (Z.to_nat k) (ranked q c) in
  {| col_ids := [fst <$> rows];
     col_documents := [(fun r => document r.2) <$> rows];
     col_metadatas := [(fun r => metadata r.2) <$> rows];
     col_distances := [(fun r => distance q (embedding r.2)) <$> rows] |}.

End Collection.

(** ** The registry manager, [app/registry.py] *)

(** Modelled from the spec: [app/registry.py] is not among the sources; the
    canonical schema set it initializes from and the fixed template it
    renders a schema with are taken as given.  [extra_metadata] is whatever
    the encoder denormalizes besides [table_name]. *)
Class Registry {backend : Backend} : Type := {
  ALL_SCHEMAS : list SchemaObject;
  document_text : SchemaObject -> string;
  extra_metadata : SchemaObject -> Metadata
}.

Section RegistryManager.
Context {backend : Backend} {registry : Registry}.

(** The id of the registry entry of a table: [f"table_{table_name}"]. *)
Definition table_id (table_name : string) : string :=
  "table_" +:+ table_name.

(** A registry entry before it is embedded. *)
Record EncodedDocument : Type := {
  doc_id : string;
  doc_text : string;
  doc_metadata : Metadata
}.

(** Modelled from the spec: [_create_document_from_schema], the document
    encoder of section 4.1.  It fails with [InvalidSchemaError] when the name
    is missing or empty (a name that is not a string cannot be concatenated
    into an id and is refused alike); otherwise the id is
    ["table_" + name], the text is the template applied to the schema, and
    the metadata carries [table_name]. *)
Definition _create_document_from_schema (schema : SchemaObject)
    : Error + EncodedDocument :=
  match schema !! "table_name" with
  | Some (JStr name) =>
      if String.eqb name ""
      then inl InvalidSchemaError
      else inr {| doc_id := table_id name;
                  doc_text := document_text schema;
                  doc_metadata := <["table_name" := SStr name]> (extra_metadata schema) |}
  | _ => inl InvalidSchemaError
  end.

(** Modelled from the spec: [add_table_to_registry], section 4.4:
    encode, embed the document text, upsert. *)
Definition add_table_to_registry (schema : SchemaObject)
    (c : gmap string Entry) : (Error + unit) * gmap string Entry :=
  match _create_document_from_schema schema with
  | inl e => (inl e, c)
  | inr d =>
      match embedding_model_encode (doc_text d) with
      | None => (inl EmbeddingError, c)
      | Some v =>
          (inr tt,
           coll_upsert (doc_id d)
             {| document := doc_text d;
                metadata := Some (doc_metadata d);
                embedding := v |} c)
      end
  end.

(** Modelled from the spec: the loop of [initialize_registry], section 4.4.
    A canonical schema whose id is already stored is left alone, the others
    are added; the first failure is surfaced and what was written before it
    stays. *)
Fixpoint initialize_from (schemas : list SchemaObject)
    (c : gmap string Entry) : (Error + unit) * gmap string Entry :=
  match schemas with
  | [] => (inr tt, c)
  | schema :: rest =>
      match _create_document_from_schema schema with
      | inl e => (inl e, c)
      | inr d =>
          match c !! doc_id d with
          | Some _ => initialize_from rest c
          | None =>
              match add_table_to_registry schema c with
              | (inl e, c') => (inl e, c')
              | (inr _, c') => initialize_from rest c'
              end
          end
      end
  end.

(** Modelled from the spec: [initialize_registry] over the canonical set. *)
Definition initialize_registry (c : gmap string Entry)
    : (Error + unit) * gmap string Entry :=
  initialize_from ALL_SCHEMAS c.

(** The ids the canonical schema set encodes to. *)
Definition canonical_ids : list string :=
  omap (fun schema =>
          match _create_document_from_schema schema with
          | inr d => Some (doc_id d)
          | inl _ => None
          end) ALL_SCHEMAS.

End RegistryManager.

(** ** Request and response models, [app/models.py] *)

Record QueryRequest : Type := { query : string; n_results : Z }.

(** Building a [QueryRequest] from a body: [query] is required, [n_results] defaults to 3
    and must satisfy [ge=1, le=20].  The result is the accepted request or
    the field that is refused. *)
Definition QueryRequest_validate (body_query : option string)
    (body_n_results : option Z) : string + QueryRequest :=
  match body_query with
  | None => inl "query"
  | Some q =>
      let k := default 3%Z body_n_results in
      if ((1 <=? k) && (k <=? 20))%Z
      then inr {| query := q; n_results := k |}
      else inl "n_results"
  end.

Record TableSchemaRequest : Type := { table_schema : SchemaObject }.

Record AddDocumentRequest : Type := {
  req_id : string;
  req_document : string;
  req_metadata : option Metadata
}.

Section ResponseModels.
Context {backend : Backend}.

Record QueryResult : Type := {
  result_document : string;
  result_metadata : Metadata;
  result_distance : Dist
}.

Record QueryResponse : Type := {
  response_query : string;
  results : list QueryResult
}.

(** Building a [QueryResult] from a row: [metadata] is a required dictionary, a row whose
    metadata is [None] is refused. *)
Definition QueryResult_validate (row : string * option Metadata * Dist)
    : option QueryResult :=
  match row with
  | (doc, Some meta, dist) =>
      Some {| result_document := doc;
              result_metadata := meta;
              result_distance := dist |}
  | (_, None, _) => None
  end.

End ResponseModels.

(** ** Configuration, [app/config.py] *)

Record Settings : Type := {
  DEBUG : bool;
  SERVICE_NAME : string;
  CHROMA_PERSIST_DIRECTORY : string;
  CHROMA_COLLECTION_NAME : string;
  EMBEDDING_MODEL : string;
  ALLOWED_ORIGINS : list string;
  PORT : Z;
  HOST : string
}.

(** The values [Settings()] has when the environment sets none. *)
Definition default_settings : Settings :=
  {| DEBUG := false;
     SERVICE_NAME := "ChromaDB Service";
     CHROMA_PERSIST_DIRECTORY := "./chroma_data";
     CHROMA_COLLECTION_NAME := "database_registry";
     EMBEDDING_MODEL := "sentence-transformers/all-MiniLM-L6-v2";
     ALLOWED_ORIGINS := ["*"];
     PORT := 8000;
     HOST := "0.0.0.0" |}.

(** ** The endpoints, [main.py] *)

Section Endpoints.
Context {backend : Backend} {registry : Registry}.

(** The body most endpoints answer with: a message and, under
    ["table_name"] or ["id"], the key it is about. *)
Record Message : Type := { message : string; subject : Json }.

(** [POST /registry/table].  A failure of the registry manager, whether it
    returns a falsy value or raises, ends in the [except] branch. *)
Definition add_table (request : TableSchemaRequest) (c : gmap string Entry)
    : Response Message * gmap string Entry :=
  match add_table_to_registry (table_schema request) c with
  | (inl e, c') =>
      (HTTPException HTTP_500_INTERNAL_SERVER_ERROR "Failed to add table" (Some e), c')
  | (inr _, c') =>
      match table_schema request !! "table_name" with
      | None =>
          (HTTPException HTTP_500_INTERNAL_SERVER_ERROR "Failed to add table"
             (Some (KeyError "table_name")), c')
      | Some name =>
          (Success HTTP_201_CREATED
             {| message := "Table '" +:+ py_str name +:+ "' added successfully";
                subject := name |}, c')
      end
  end.

(** [DELETE /registry/table/{table_name}] *)
Definition delete_table (table_name : string) (c : gmap string Entry)
    : Response Message * gmap string Entry :=
  let c' := coll_delete_ids [table_id table_name] c in
  (Success HTTP_200_OK
     {| message := "Table '" +:+ table_name +:+ "' deleted successfully";
        subject := JStr table_name |}, c').

Record Reinitialized : Type := {
  reinit_message : string;
  initialized : bool;
  table_count : nat
}.

(** The filter of the clear step: [{"table_name": {"$ne": ""}}]. *)
Definition registry_filter : Where :=
  {| where_key := "table_name"; where_ne := "" |}.

(** The clear step of [reinitialize_registry]. *)
Definition clear_registry (c : gmap string Entry) : gmap string Entry :=
  coll_delete_where registry_filter c.

(** [POST /registry/reinitialize]: clear by the filter, then initialize;
    the outcome of the initialization is reported in the body. *)
Definition reinitialize_registry (c : gmap string Entry)
    : Response Reinitialized * gmap string Entry :=
  let c1 := clear_registry c in
  let '(success, c2) := initialize_registry c1 in
  (Success HTTP_200_OK
     {| reinit_message := "Registry reinitialized successfully";
        initialized := match success with inr _ => true | inl _ => false end;
        table_count := coll_count c2 |}, c2).

(** [zip(documents, metadatas, distances)] *)
Fixpoint zip3 {A B C} (xs : list A) (ys : list B) (zs : list C)
    : list (A * B * C) :=
  match xs, ys, zs with
  | x :: xs', y :: ys', z :: zs' => (x, y, z) :: zip3 xs' ys' zs'
  | _, _, _ => []
  end.

(** The three columns of the answer for one stored entry. *)
Definition entry_row (q : Emb) (r : string * Entry)
    : string * option Metadata * Dist :=
  (document r.2, metadata r.2, distance q (embedding r.2)).

(** The same three columns of a row of the response. *)
Definition result_row (r : QueryResult) : string * option Metadata * Dist :=
  (result_document r, Some (result_metadata r), result_distance r).

(** [query_registry], the handler of [POST /query]; it only reads the
    collection. *)
Definition query_registry (request : QueryRequest) (c : gmap string Entry)
    : Response QueryResponse :=
  match embedding_model_encode (query request) with
  | None =>
      HTTPException HTTP_500_INTERNAL_SERVER_ERROR "Query failed" (Some EmbeddingError)
  | Some query_embedding =>
      let found := coll_query query_embedding (n_results request) c in
      match head (col_documents found), head (col_metadatas found),
            head (col_distances found) with
      | Some documents, Some metadatas, Some distances =>
          match mapM QueryResult_validate (zip3 documents metadatas distances) with
          | Some rows =>
              Success HTTP_200_OK
                {| response_query := query request; results := rows |}
          | None =>
              HTTPException HTTP_500_INTERNAL_SERVER_ERROR "Query failed"
                (Some (ValidationError "metadata"))
          end
      | _, _, _ =>
          HTTPException HTTP_500_INTERNAL_SERVER_ERROR "Query failed" (Some IndexError)
      end
  end.

(** [POST /query] with the body as the client sent it: the framework
    builds the [QueryRequest] first and answers 422 itself when it cannot. *)
Definition post_query (body_query : option string) (body_n_results : option Z)
    (c : gmap string Entry) : Response QueryResponse :=
  match QueryRequest_validate body_query body_n_results with
  | inl loc => RequestValidationError loc
  | inr request => query_registry request c
  end.

(** [[request.metadata] if request.metadata else None]: an empty dictionary
    is falsy. *)
Definition metadata_or_none (m : option Metadata) : option Metadata :=
  match m with
  | Some md => if decide (md = ∅) then None else Some md
  | None => None
  end.

(** [POST /documents/add] *)
Definition add_document (request : AddDocumentRequest) (c : gmap string Entry)
    : Response Message * gmap string Entry :=
  match embedding_model_encode (req_document request) with
  | None =>
      (HTTPException HTTP_500_INTERNAL_SERVER_ERROR "Failed to add document"
         (Some EmbeddingError), c)
  | Some v =>
      let c' := coll_add (req_id request)
                  {| document := req_document request;
                     metadata := metadata_or_none (req_metadata request);
                     embedding := v |} c in
      (Success HTTP_201_CREATED
         {| message := "Document added successfully";
            subject := JStr (req_id request) |}, c')
  end.

Record DocumentBody : Type := {
  body_id : string;
  body_document : string;
  body_metadata : option Metadata
}.

(** [GET /documents/{doc_id}] *)
Definition get_document (doc_id : string) (c : gmap string Entry)
    : Response DocumentBody :=
  match coll_get doc_id c with
  | None =>
      HTTPException HTTP_404_NOT_FOUND
        ("Document with id '" +:+ doc_id +:+ "' not found") None
  | Some e =>
      Success HTTP_200_OK
        {| body_id := doc_id;
           body_document := document e;
           body_metadata := metadata e |}
  end.

(** [DELETE /documents/{doc_id}] *)
Definition delete_document (doc_id : string) (c : gmap string Entry)
    : Response Message * gmap string Entry :=
  let c' := coll_delete_ids [doc_id] c in
  (Success HTTP_200_OK
     {| message := "Document '" +:+ doc_id +:+ "' deleted successfully";
        subject := JStr doc_id |}, c').

(** [lifespan], the startup half: the registry is initialized against the
    collection as it was persisted; the outcome is not looked at. *)
Definition lifespan (c : gmap string Entry) : gmap string Entry :=
  (initialize_registry c).2.

Record CollectionInfo : Type := {
  collection_name : string;
  document_count : nat;
  embedding_model : string;
  persist_directory : string
}.

(** [GET /info] *)
Definition collection_info (settings : Settings) (c : gmap string Entry)
    : Response CollectionInfo :=
  let count := coll_count c in
  Success HTTP_200_OK
    {| collection_name := CHROMA_COLLECTION_NAME settings;
       document_count := count;
       embedding_model := EMBEDDING_MODEL settings;
       persist_directory := CHROMA_PERSIST_DIRECTORY settings |}.

Record ResetBody : Type := { reset_message : string; documents_deleted : nat }.

(** [POST /admin/reset]: read all ids, delete them when there are any. *)
Definition reset_collection (c : gmap string Entry)
    : Response ResetBody * gmap string Entry :=
  let ids := (coll_get_all c).*1 in
  let c' := match ids with
            | [] => c
            | _ :: _ => coll_delete_ids ids c
            end in
  (Success HTTP_200_OK
     {| reset_message := "Collection reset successfully";
        documents_deleted := match ids with
                             | [] => 0
                             | _ :: _ => length ids
                             end |}, c').

End Endpoints.

(** ** The client library, [client.py] *)

(** One run of slashes. *)
Fixpoint slashes (n : nat) : string :=
  match n with
  | O => EmptyString
  | S n' => String "/"%char (slashes n')
  end.

(** [s.rstrip('/')]: the string without the slashes it ends in. *)
Fixpoint rstrip_slash (s : string) : string :=
  match s with
  | EmptyString => EmptyString
  | String a rest =>
      match rstrip_slash rest with
      | EmptyString =>
          if Ascii.eqb a "/"%char then EmptyString else String a EmptyString
      | String b kept => String a (String b kept)
      end
  end.

(** What a method of the client hands to [requests]. *)
Record HttpRequest : Type := {
  http_method : string;
  http_url : string;
  http_json : option Json;
  http_timeout : Z
}.

Module Client.

Record ChromaDBClient : Type := { base_url : string; timeout : Z }.

(** [ChromaDBClient(base_url, timeout=30)] *)
Definition __init__ (url : string) (seconds : option Z) : ChromaDBClient :=
  {| base_url := rstrip_slash url; timeout := default 30%Z seconds |}.

(** [requests.get(url, timeout=self.timeout)], and likewise below. *)
Definition requests_get (self : ChromaDBClient) (path : string) : HttpRequest :=
  {| http_method := "GET"; http_url := base_url self +:+ path;
     http_json := None; http_timeout := timeout self |}.

Definition requests_post (self : ChromaDBClient) (path : string) (body : option Json)
    : HttpRequest :=
  {| http_method := "POST"; http_url := base_url self +:+ path;
     http_json := body; http_timeout := timeout self |}.

Definition requests_delete (self : ChromaDBClient) (path : string) : HttpRequest :=
  {| http_method := "DELETE"; http_url := base_url self +:+ path;
     http_json := None; http_timeout := timeout self |}.

Definition health_check (self : ChromaDBClient) : HttpRequest :=
  requests_get self "/health".

Definition get_collection_info (self : ChromaDBClient) : HttpRequest :=
  requests_get self "/info".

(** [n_results] defaults to 3. *)
Definition query_registry (self : ChromaDBClient) (text : string)
    (k : option Z) : HttpRequest :=
  requests_post self "/query"
    (Some (JDict [("query", JStr text); ("n_results", JInt (default 3%Z k))])).

Definition list_tables (self : ChromaDBClient) : HttpRequest :=
  requests_get self "/registry/tables".

Definition add_table (self : ChromaDBClient) (schema : Json) : HttpRequest :=
  requests_post self "/registry/table" (Some (JDict [("table_schema", schema)])).

Definition delete_table (self : ChromaDBClient) (table_name : string)
    : HttpRequest :=
  requests_delete self ("/registry/table/" +:+ table_name).

Definition reinitialize_registry (self : ChromaDBClient) : HttpRequest :=
  requests_post self "/registry/reinitialize" None.

(** [metadata] defaults to [None], sent as [null]. *)
Definition add_document (self : ChromaDBClient) (doc_id text : string)
    (meta : option Json) : HttpRequest :=
  requests_post self "/documents/add"
    (Some (JDict [("id", JStr doc_id); ("document", JStr text);
                  ("metadata", default JNull meta)])).

Definition get_document (self : ChromaDBClient) (doc_id : string)
    : HttpRequest :=
  requests_get self ("/documents/" +:+ doc_id).

Definition delete_document (self : ChromaDBClient) (doc_id : string)
    : HttpRequest :=
  requests_delete self ("/documents/" +:+ doc_id).

Definition reset_collection (self : ChromaDBClient) : HttpRequest :=
  requests_post self "/admin/reset" None.

End Client.

(** ** A small instance to run the service on *)

(** Texts are embedded as their length and compared by the difference of
    the lengths. *)
Definition toy_backend (complement : bool) : Backend :=
  {| Emb := nat;
     embedding_model_encode := fun text => Some (String.length text);
     Dist := nat;
     distance := fun a b => ((a - b) + (b - a))%nat;
     dist_le := Nat.leb;
     dist_le_total := fun x y =>
       match Nat.le_ge_cases x y with
       | or_introl h => or_introl (proj2 (Nat.leb_le x y) h)
       | or_intror h => or_intror (proj2 (Nat.leb_le y x) h)
       end;
     dist_le_trans := fun x y z h1 h2 =>
       proj2 (Nat.leb_le x z)
         (Nat.le_trans x y z (proj1 (Nat.leb_le x y) h1) (proj1 (Nat.leb_le y z) h2));
     ne_complement := complement;
     py_repr := fun _ => "<value>" |}.

Definition patients_schema : SchemaObject :=
  {[ "table_name" := JStr "patients";
     "description" := JStr "Patient master data" ]}.

Definition visits_schema : SchemaObject :=
  {[ "table_name" := JStr "visits" ]}.

(** The canonical set holds [patients] alone. *)
Definition toy_registry (complement : bool) : @Registry (toy_backend complement) :=
  {| ALL_SCHEMAS := [patients_schema];
     document_text := fun schema =>
       match schema !! "table_name" with
       | Some (JStr name) => "Table: " +:+ name
       | _ => ""
       end;
     extra_metadata := fun _ => ∅ |}.

(** An ad hoc document without metadata. *)
Definition plain_note : AddDocumentRequest :=
  {| req_id := "note-1"; req_document := "ward round notes"; req_metadata := None |}.

(** An ad hoc document whose [table_name] is the empty string. *)
Definition blank_note : AddDocumentRequest :=
  {| req_id := "note-2";
     req_document := "discharge letter";
     req_metadata := Some {[ "table_name" := SStr "" ]} |}.

(** A collection to run the examples on: the two notes, then the
    registry initialized. *)
Definition toy_collection (complement : bool) : gmap string (@Entry (toy_backend complement)) :=
  let backend := toy_backend complement in
  let c1 := (@add_document backend plain_note ∅).2 in
  let c2 := (@add_document backend blank_note c1).2 in
  (@initialize_registry backend (toy_registry complement) c2).2.

(** The registry initialized on an empty collection. *)
Definition toy_tables (complement : bool) : gmap string (@Entry (toy_backend complement)) :=
  (@initialize_registry (toy_backend complement) (toy_registry complement) ∅).2.

(** The instance the examples run on: a store whose [$ne] only compares
    the entries that carry the key. *)
Definition run_backend : Backend := toy_backend false.
Definition run_registry : @Registry run_backend := toy_registry false.
Definition stored : gmap string (@Entry run_backend) := toy_collection false.

(** * Properties *)

(** ** The collection *)

Section CollectionFacts.
Context {backend : Backend}.

Lemma coll_delete_ids_one (id : string) (c : gmap string Entry) :
  coll_delete_ids [id] c = delete id c.
Proof. reflexivity. Qed.

Lemma coll_delete_ids_lookup (id id' : string) (c : gmap string Entry) :
  coll_delete_ids [id] c !! id' = if decide (id' = id) then None else c !! id'.
Proof.
  rewrite coll_delete_ids_one. case_decide as Hid.
  - subst id'. apply lookup_delete_eq.
  - apply lookup_delete_ne. congruence.
Qed.

Lemma coll_delete_ids_absent (id : string) (c : gmap string Entry) :
  c !! id = None -> coll_delete_ids [id] c = c.
Proof. intros Hid. rewrite coll_delete_ids_one. by apply delete_id. Qed.


Lemma coll_upsert_twice (id : string) (e : Entry) (c : gmap string Entry) :
  coll_upsert id e (coll_upsert id e c) = coll_upsert id e c.
Proof. unfold coll_upsert. apply insert_insert_eq. Qed.

Lemma occurrences_absent (id : string) (c : gmap string Entry) :
  c !! id = None -> occurrences id c = 0.
Proof.
  intros Hid. unfold occurrences.
  destruct (filter _ (map_to_list c)) as [|[k e] l] eqn:Hf; [done|].
  assert (Hin : (k, e) ∈ filter (fun kv : string * Entry => kv.1 = id) (map_to_list c))
    by (rewrite Hf; left).
  apply list_elem_of_filter in Hin as [Hk Hin]. simpl in Hk. subst k.
  apply elem_of_map_to_list in Hin. congruence.
Qed.

Lemma occurrences_present (id : string) (e : Entry) (c : gmap string Entry) :
  c !! id = Some e -> occurrences id c = 1.
Proof.
  intros Hid. unfold occurrences.
  rewrite <- (insert_delete_id c id e Hid).
  rewrite map_to_list_insert by apply lookup_delete_eq.
  rewrite filter_cons_True by done. simpl. f_equal.
  apply (occurrences_absent id (delete id c)), lookup_delete_eq.
Qed.

End CollectionFacts.

(** ** Deleting by id *)

Section DeleteFacts.
Context {backend : Backend} {registry : Registry}.

(** C3.  The id of a table's registry entry is ["table_"] followed by the
    table name, in the encoder as in [delete_table]; [delete_table n]
    answers success and removes the entry stored under that id and no
    other: every other id looks up as before. *)
Theorem delete_table_exact (n : string) (c : gmap string Entry) :
  table_id n = "table_" +:+ n
  /\ (forall schema d,
        schema !! "table_name" = Some (JStr n) ->
        _create_document_from_schema schema = inr d ->
        doc_id d = "table_" +:+ n)
  /\ is_success (delete_table n c).1 = true
  /\ forall id,
       (delete_table n c).2 !! id
       = if decide (id = "table_" +:+ n) then None else c !! id.
Proof.
  split; [reflexivity|]. split; [|split; [reflexivity|]].
  - intros schema d Hname. unfold _create_document_from_schema.
    rewrite Hname. destruct (String.eqb n ""); [intros [=]|].
    intros [= <-]. reflexivity.
  - intros id. unfold delete_table. cbn [snd].
    apply coll_delete_ids_lookup.
Qed.

(** C5.  Deleting an id that is not stored, by [delete_document] or, for
    the id of a table, by [delete_table], answers success and leaves the
    collection as it was. *)
Theorem delete_missing_noop (c : gmap string Entry) :
  (forall doc_id,
      c !! doc_id = None ->
      is_success (delete_document doc_id c).1 = true
      /\ (delete_document doc_id c).2 = c)
  /\ (forall table_name,
        c !! table_id table_name = None ->
        is_success (delete_table table_name c).1 = true
        /\ (delete_table table_name c).2 = c).
Proof.
  split; intros k Hk; (split; [reflexivity|]);
    cbn [delete_document delete_table snd];
    by apply coll_delete_ids_absent.
Qed.

End DeleteFacts.

(** ** The registry manager *)

Section RegistryFacts.
Context {backend : Backend} {registry : Registry}.

Lemma encode_inr (schema : SchemaObject) (d : EncodedDocument) :
  _create_document_from_schema schema = inr d ->
  exists name,
    schema !! "table_name" = Some (JStr name) /\ name <> ""
    /\ d = {| doc_id := table_id name;
              doc_text := document_text schema;
              doc_metadata := <["table_name" := SStr name]> (extra_metadata schema) |}.
Proof.
  unfold _create_document_from_schema.
  destruct (schema !! "table_name") as [[| | | |name| |]|]; try (intros [=]; fail).
  destruct (String.eqb_spec name ""); [intros [=]|].
  intros [= <-]. by exists name.
Qed.

Lemma add_table_to_registry_ok (schema : SchemaObject) (c c' : gmap string Entry) :
  add_table_to_registry schema c = (inr tt, c') ->
  exists d v,
    _create_document_from_schema schema = inr d
    /\ embedding_model_encode (doc_text d) = Some v
    /\ c' = coll_upsert (doc_id d)
              {| document := doc_text d;
                 metadata := Some (doc_metadata d);
                 embedding := v |} c.
Proof.
  unfold add_table_to_registry.
  destruct (_create_document_from_schema schema) as [e|d]; [intros [=]|].
  destruct (embedding_model_encode (doc_text d)) as [v|] eqn:Hemb; [|intros [=]].
  intros [= <-]. exists d, v. repeat split; first [exact Hemb|reflexivity].
Qed.

Lemma add_table_to_registry_fail (schema : SchemaObject) (c : gmap string Entry) e :
  (add_table_to_registry schema c).1 = inl e ->
  (add_table_to_registry schema c).2 = c.
Proof.
  unfold add_table_to_registry.
  destruct (_create_document_from_schema schema) as [e'|d]; [done|].
  by destruct (embedding_model_encode (doc_text d)).
Qed.

(** The outcome of [add_table_to_registry] does not depend on the
    collection it runs against. *)
Lemma add_table_to_registry_outcome (schema : SchemaObject) (c c' : gmap string Entry) :
  (add_table_to_registry schema c).1 = (add_table_to_registry schema c').1.
Proof.
  unfold add_table_to_registry.
  destruct (_create_document_from_schema schema) as [e|d]; [done|].
  by destruct (embedding_model_encode (doc_text d)).
Qed.

(** C6.  A schema whose name is missing or empty is refused with
    [InvalidSchemaError] by the encoder, and so by [add_table_to_registry];
    the [add_table] endpoint then does not answer success, and nothing is
    written. *)
Theorem invalid_schema_rejected (schema : SchemaObject) (c : gmap string Entry) :
  schema !! "table_name" = None \/ schema !! "table_name" = Some (JStr "") ->
  _create_document_from_schema schema = inl InvalidSchemaError
  /\ add_table_to_registry schema c = (inl InvalidSchemaError, c)
  /\ is_success (add_table {| table_schema := schema |} c).1 = false
  /\ (add_table {| table_schema := schema |} c).2 = c.
Proof.
  intros Hname.
  assert (Henc : _create_document_from_schema schema = inl InvalidSchemaError).
  { unfold _create_document_from_schema. by destruct Hname as [-> | ->]. }
  assert (Hadd : add_table_to_registry schema c = (inl InvalidSchemaError, c)).
  { unfold add_table_to_registry. by rewrite Henc. }
  split; [done|]. split; [done|].
  unfold add_table. cbn [table_schema]. by rewrite Hadd.
Qed.

(** C7.  Adding the same schema twice: the second call has the outcome of
    the first and leaves the collection exactly as the first call left it,
    so the count does not change; when the call succeeds, exactly one
    stored tuple carries the id derived from the schema's name. *)
Theorem add_table_idempotent (schema : SchemaObject) (c : gmap string Entry) :
  let c1 := (add_table_to_registry schema c).2 in
  let c2 := (add_table_to_registry schema c1).2 in
  (add_table_to_registry schema c1).1 = (add_table_to_registry schema c).1
  /\ c2 = c1
  /\ coll_count c2 = coll_count c1
  /\ ((add_table_to_registry schema c).1 = inr tt ->
      exists name,
        schema !! "table_name" = Some (JStr name)
        /\ occurrences (table_id name) c2 = 1).
Proof.
  intros c1 c2.
  assert (Hsame : c2 = c1).
  { subst c2 c1.
    destruct (add_table_to_registry schema c) as [[e|[]] c'] eqn:Hadd; cbn [snd].
    - apply (add_table_to_registry_fail schema c' e).
      rewrite (add_table_to_registry_outcome schema c' c). by rewrite Hadd.
    - apply add_table_to_registry_ok in Hadd as (d & v & Henc & Hemb & ->).
      unfold add_table_to_registry. rewrite Henc, Hemb. cbn [snd].
      apply coll_upsert_twice. }
  split; [apply add_table_to_registry_outcome|].
  split; [done|]. split; [by rewrite Hsame|].
  intros Hok. rewrite Hsame. subst c1.
  destruct (add_table_to_registry schema c) as [r c'] eqn:Hadd.
  cbn [fst] in Hok. subst r. cbn [snd].
  apply add_table_to_registry_ok in Hadd as (d & v & Henc & Hemb & ->).
  apply encode_inr in Henc as (name & Hname & _ & ->).
  exists name. split; [done|].
  eapply occurrences_present. unfold coll_upsert. cbn [doc_id].
  apply lookup_insert_eq.
Qed.


End RegistryFacts.

(** ** Clearing and reinitializing *)

Section ReinitializeFacts.
Context {backend : Backend} {registry : Registry}.

Lemma clear_registry_lookup (c : gmap string Entry) (id : string) :
  clear_registry c !! id
  = match c !! id with
    | Some e => if where_matches registry_filter e then None else Some e
    | None => None
    end.
Proof.
  unfold clear_registry, coll_delete_where. rewrite map_lookup_filter.
  destruct (c !! id) as [e|]; [|done]. cbn.
  destruct (where_matches registry_filter e); by simplify_option_eq.
Qed.

(** What the filter of the clear step selects. *)
Lemma registry_filter_matches (e : Entry) :
  where_matches registry_filter e
  = match metadata_get "table_name" e with
    | Some (SStr name) => negb (String.eqb name "")
    | _ => ne_complement
    end.
Proof. reflexivity. Qed.

Lemma initialize_from_keeps (schemas : list SchemaObject)
    (c : gmap string Entry) (id : string) (e : Entry) :
  c !! id = Some e -> (initialize_from schemas c).2 !! id = Some e.
Proof.
  revert c. induction schemas as [|schema rest IH]; intros c Hid; [done|].
  cbn [initialize_from].
  destruct (_create_document_from_schema schema) as [err|d] eqn:Henc; [done|].
  destruct (c !! doc_id d) as [e'|] eqn:Hd; [by apply IH|].
  unfold add_table_to_registry. rewrite Henc.
  destruct (embedding_model_encode (doc_text d)) as [v|]; [|done].
  apply IH. unfold coll_upsert. rewrite lookup_insert_ne; [done|].
  intros Heq. rewrite Heq in Hd. congruence.
Qed.

Lemma canonical_ids_spec (id : string) :
  id ∈ canonical_ids
  <-> exists schema d,
        schema ∈ ALL_SCHEMAS
        /\ _create_document_from_schema schema = inr d /\ doc_id d = id.
Proof.
  unfold canonical_ids. rewrite list_elem_of_omap. split.
  - intros (schema & Hin & Hid).
    destruct (_create_document_from_schema schema) as [err|d] eqn:Henc; [done|].
    injection Hid as <-. by exists schema, d.
  - intros (schema & d & Hin & Henc & <-). exists schema.
    by rewrite Henc.
Qed.

Lemma initialize_from_origin (schemas : list SchemaObject)
    (c : gmap string Entry) (id : string) (e : Entry) :
  (initialize_from schemas c).2 !! id = Some e ->
  c !! id = Some e
  \/ exists schema d,
       schema ∈ schemas
       /\ _create_document_from_schema schema = inr d /\ doc_id d = id.
Proof.
  revert c. induction schemas as [|schema rest IH]; intros c; [by left|].
  assert (Hrest : forall c0,
            (initialize_from rest c0).2 !! id = Some e ->
            c0 !! id = Some e
            \/ exists schema0 d,
                 schema0 ∈ schema :: rest
                 /\ _create_document_from_schema schema0 = inr d /\ doc_id d = id).
  { intros c0 [Hc|(s0 & d0 & Hin & Hd)]%IH; [by left|].
    right. exists s0, d0. split; [by apply list_elem_of_further|done]. }
  cbn [initialize_from].
  destruct (_create_document_from_schema schema) as [err|d] eqn:Henc; [by left|].
  destruct (c !! doc_id d) as [e'|] eqn:Hd; [apply Hrest|].
  unfold add_table_to_registry. rewrite Henc.
  destruct (embedding_model_encode (doc_text d)) as [v|]; [|by left].
  intros [Hc|Hin]%Hrest; [|by right].
  unfold coll_upsert in Hc. destruct (decide (doc_id d = id)) as [Heq|Hne].
  - right. exists schema, d. split; [apply list_elem_of_here|done].
  - rewrite lookup_insert_ne in Hc by done. by left.
Qed.

(** C1, as amended.  After [reinitialize_registry], an entry that is not
    canonical and whose [table_name] is a non-empty string is gone, so that
    the table of a non-canonical schema added before is reported as not
    found; an entry whose [table_name] is the empty string is still stored
    as it was; and whatever is stored afterwards is canonical or was stored
    before and passed over by the filter of the clear step. *)
Theorem reinitialize_clears_registry_entries (c : gmap string Entry) :
  let c' := (reinitialize_registry c).2 in
  (forall id e name,
      c !! id = Some e ->
      metadata_get "table_name" e = Some (SStr name) -> name <> "" ->
      id ∉ canonical_ids ->
      c' !! id = None
      /\ get_document id c'
         = HTTPException HTTP_404_NOT_FOUND
             ("Document with id '" +:+ id +:+ "' not found") None)
  /\ (forall id e,
        c !! id = Some e ->
        metadata_get "table_name" e = Some (SStr "") ->
        c' !! id = Some e)
  /\ (forall id e,
        c' !! id = Some e ->
        id ∈ canonical_ids
        \/ (c !! id = Some e /\ where_matches registry_filter e = false)).
Proof.
  intros c'.
  assert (Hc' : c' = (initialize_from ALL_SCHEMAS (clear_registry c)).2).
  { subst c'. unfold reinitialize_registry, initialize_registry.
    by destruct (initialize_from ALL_SCHEMAS (clear_registry c)). }
  assert (Horigin : forall id e,
            c' !! id = Some e ->
            id ∈ canonical_ids
            \/ (c !! id = Some e /\ where_matches registry_filter e = false)).
  { intros id e. rewrite Hc'. intros [Hclear|Hin]%initialize_from_origin.
    2: { left. by apply canonical_ids_spec. }
    - right. rewrite clear_registry_lookup in Hclear.
      destruct (c !! id) as [e0|]; [|done].
      destruct (where_matches registry_filter e0) eqn:Hm; [done|].
      by injection Hclear as ->. }
  split; [|split; [|exact Horigin]].
  - intros id e name Hid Hname Hne Hcanon.
    assert (Hgone : c' !! id = None).
    { destruct (c' !! id) as [e'|] eqn:Hafter; [|done].
      apply Horigin in Hafter as [Hin|[Hid' Hm]]; [done|].
      rewrite Hid in Hid'. injection Hid' as <-.
      rewrite registry_filter_matches, Hname in Hm.
      destruct (String.eqb_spec name ""); [done|discriminate]. }
    split; [done|]. unfold get_document, coll_get. by rewrite Hgone.
  - intros id e Hid Hname. rewrite Hc'. apply initialize_from_keeps.
    rewrite clear_registry_lookup, Hid, registry_filter_matches, Hname.
    reflexivity.
Qed.


(** With a store whose [$ne] is the complement of [$eq], the same clear
    step deletes the documents without a [table_name]. *)
Lemma clear_drops_unkeyed (c : gmap string Entry) (id : string) (e : Entry) :
  ne_complement = true ->
  c !! id = Some e ->
  metadata_get "table_name" e = None ->
  clear_registry c !! id = None.
Proof.
  intros Hstore Hid Hkey.
  by rewrite clear_registry_lookup, Hid, registry_filter_matches, Hkey, Hstore.
Qed.

End ReinitializeFacts.

(** ** Querying *)

Section QueryFacts.
Context {backend : Backend}.

Lemma zip3_fmap {A B C D} (f : A -> B) (g : A -> C) (h : A -> D) (l : list A) :
  zip3 (f <$> l) (g <$> l) (h <$> l) = (fun x => (f x, g x, h x)) <$> l.
Proof. induction l as [|x l IH]; [done|]. cbn. by rewrite IH. Qed.

(** The handler validates, row by row, the [n_results] nearest entries. *)
Lemma query_registry_unfold (request : QueryRequest) (c : gmap string Entry) q :
  embedding_model_encode (query request) = Some q ->
  query_registry request c
  = match mapM QueryResult_validate
            (entry_row q <$> take (Z.to_nat (n_results request)) (ranked q c)) with
    | Some rows =>
        Success HTTP_200_OK {| response_query := query request; results := rows |}
    | None =>
        HTTPException HTTP_500_INTERNAL_SERVER_ERROR "Query failed"
          (Some (ValidationError "metadata"))
    end.
Proof.
  intros Hq. unfold query_registry. rewrite Hq.
  cbn [coll_query col_documents col_metadatas col_distances head].
  by rewrite zip3_fmap.
Qed.

Global Instance nearer_total q : Total (nearer q).
Proof. intros a b. apply dist_le_total. Qed.

Global Instance nearer_trans q : Transitive (nearer q).
Proof. intros a b d. apply dist_le_trans. Qed.

Lemma StronglySorted_take {A} (R : relation A) (n : nat) (l : list A) :
  StronglySorted R l -> StronglySorted R (take n l).
Proof.
  intros Hl. revert n.
  induction Hl as [|x l Hl IH Hx]; intros [|n]; cbn; try constructor.
  - apply IH.
  - by apply Forall_take.
Qed.

Lemma ranked_sorted q (c : gmap string Entry) :
  StronglySorted (nearer q) (ranked q c).
Proof. apply StronglySorted_merge_sort; apply _. Qed.

Lemma ranked_length q (c : gmap string Entry) :
  length (ranked q c) = coll_count c.
Proof.
  unfold ranked, coll_count.
  rewrite (Permutation_length (merge_sort_Permutation _ _)).
  apply length_map_to_list.
Qed.

Lemma ranked_stored q (c : gmap string Entry) (r : string * Entry) :
  r ∈ ranked q c -> c !! r.1 = Some r.2.
Proof.
  unfold ranked. rewrite merge_sort_Permutation. destruct r as [id e].
  apply elem_of_map_to_list.
Qed.

Lemma validated_rows (l : list (string * option Metadata * Dist))
    (rows : list QueryResult) :
  mapM QueryResult_validate l = Some rows -> result_row <$> rows = l.
Proof.
  intros Hrows%mapM_Some_1.
  induction Hrows as [|[[doc meta] dist] row l rows Hrow _ IH]; [done|].
  cbn. rewrite IH. f_equal.
  destruct meta as [meta|]; [|discriminate].
  by injection Hrow as <-.
Qed.

(** Where every stored entry carries metadata and the model embeds the
    query, the handler answers with the [n_results] nearest entries as the
    collection ranks them: as many rows as [n_results] or the count of the
    collection, whichever is less, in non-decreasing order of distance, each
    row the stored document, metadata and distance. *)
Lemma query_registry_passthrough (request : QueryRequest)
    (c : gmap string Entry) q :
  embedding_model_encode (query request) = Some q ->
  (forall id e, c !! id = Some e -> is_Some (metadata e)) ->
  exists rows,
    query_registry request c
    = Success HTTP_200_OK {| response_query := query request; results := rows |}
    /\ result_row <$> rows
       = entry_row q <$> take (Z.to_nat (n_results request)) (ranked q c)
    /\ length rows = Z.to_nat (n_results request) `min` coll_count c
    /\ StronglySorted (fun a b => dist_le a b = true) (result_distance <$> rows).
Proof.
  intros Hq Hmeta. rewrite (query_registry_unfold _ _ _ Hq).
  set (l := take (Z.to_nat (n_results request)) (ranked q c)).
  destruct (mapM QueryResult_validate (entry_row q <$> l)) as [rows|] eqn:Hrows.
  - exists rows. split; [done|].
    pose proof (validated_rows _ _ Hrows) as Hpass. split; [done|]. split.
    + rewrite <- (length_fmap result_row), Hpass, length_fmap.
      subst l. by rewrite length_take, ranked_length.
    + replace (result_distance <$> rows) with (snd <$> (result_row <$> rows))
        by (rewrite <- list_fmap_compose; done).
      rewrite Hpass, <- list_fmap_compose.
      apply (StronglySorted_fmap _ (nearer q)); [done|].
      apply StronglySorted_take, ranked_sorted.
  - exfalso. apply mapM_None_1, Exists_exists in Hrows as (row & Hin & Hnone).
    apply list_elem_of_fmap in Hin as ([id e] & -> & Hin).
    apply subseteq_take, ranked_stored, Hmeta in Hin as [meta Hm].
    unfold entry_row in Hnone. cbn in Hnone, Hm. by rewrite Hm in Hnone.
Qed.

(** When one of the [n_results] nearest entries has no metadata, the
    response model refuses the row and the handler answers 500. *)
Lemma query_registry_refuses_plain (request : QueryRequest)
    (c : gmap string Entry) q (r : string * Entry) :
  embedding_model_encode (query request) = Some q ->
  r ∈ take (Z.to_nat (n_results request)) (ranked q c) ->
  metadata r.2 = None ->
  query_registry request c
  = HTTPException HTTP_500_INTERNAL_SERVER_ERROR "Query failed"
      (Some (ValidationError "metadata")).
Proof.
  intros Hq Hin Hmeta. rewrite (query_registry_unfold _ _ _ Hq).
  rewrite (mapM_None_2 QueryResult_validate); [done|].
  apply Exists_exists. exists (entry_row q r). split.
  - apply list_elem_of_fmap. by exists r.
  - unfold entry_row. by rewrite Hmeta.
Qed.


Lemma post_query_in_range (text : string) (k : Z) (c : gmap string Entry) :
  (1 <= k <= 20)%Z ->
  post_query (Some text) (Some k) c
  = query_registry {| query := text; n_results := k |} c.
Proof.
  intros Hk. unfold post_query, QueryRequest_validate. cbn [from_option id].
  destruct (Z.leb_spec 1 k), (Z.leb_spec k 20); cbn; try done; lia.
Qed.



(** C2.  A collection that holds one document added without metadata has
    one entry, yet a query for one result, with [n_results] in range and a
    text the model embeds, is answered with the 500 failure and no row: the
    response model refuses the row whose metadata is [None]. *)
Theorem query_fails_on_plain_document (request : AddDocumentRequest)
    (text : string) (k : Z) :
  metadata_or_none (req_metadata request) = None ->
  is_Some (embedding_model_encode (req_document request)) ->
  is_Some (embedding_model_encode text) ->
  (1 <= k <= 20)%Z ->
  let c := (add_document request ∅).2 in
  coll_count c = 1
  /\ post_query (Some text) (Some k) c
     = HTTPException HTTP_500_INTERNAL_SERVER_ERROR "Query failed"
         (Some (ValidationError "metadata")).
Proof.
  intros Hmeta [v Hv] [q Hq] Hk c.
  assert (Hc : c = {[ req_id request :=
                        {| document := req_document request;
                           metadata := None;
                           embedding := v |} ]}).
  { subst c. unfold add_document. rewrite Hv, Hmeta. cbn [snd].
    unfold coll_add. by rewrite lookup_empty. }
  split; [rewrite Hc; apply map_size_singleton|].
  rewrite (post_query_in_range text k c Hk).
  eapply (query_registry_refuses_plain _ _ q
            (req_id request,
             {| document := req_document request; metadata := None; embedding := v |}));
    [exact Hq| |reflexivity].
  cbn [n_results]. unfold ranked. rewrite Hc, map_to_list_singleton.
  destruct (Z.to_nat k) as [|n] eqn:Hn; [lia|]. left.
Qed.


End QueryFacts.

(** ** The service on the small instance *)

Section Examples.
Local Existing Instances run_backend run_registry.

Local Ltac run := vm_compute; first [reflexivity | by eexists | done].

Lemma delete_table_exact_witness :
  doc_id {| doc_id := "table_patients";
            doc_text := "Table: patients";
            doc_metadata := {[ "table_name" := SStr "patients" ]} |}
  = "table_" +:+ "patients".
Proof.
  apply (proj1 (proj2 (delete_table_exact (registry := run_registry) "patients" stored))
           patients_schema); run.
Defined.

Lemma delete_missing_noop_witness :
  (is_success (delete_document (backend := run_backend) "nonexistent" stored).1 = true
   /\ (delete_document "nonexistent" stored).2 = stored)
  /\ (is_success (delete_table (backend := run_backend) "nonexistent" stored).1 = true
      /\ (delete_table "nonexistent" stored).2 = stored).
Proof.
  split.
  - apply (proj1 (delete_missing_noop stored) "nonexistent"). run.
  - apply (proj2 (delete_missing_noop stored) "nonexistent"). run.
Defined.

Lemma invalid_schema_rejected_witness :
  _create_document_from_schema (registry := run_registry) {[ "description" := JStr "no name" ]}
  = inl InvalidSchemaError
  /\ add_table_to_registry {[ "description" := JStr "no name" ]} stored
     = (inl InvalidSchemaError, stored)
  /\ is_success (add_table {| table_schema := {[ "description" := JStr "no name" ]} |}
                   stored).1 = false
  /\ (add_table {| table_schema := {[ "description" := JStr "no name" ]} |} stored).2
     = stored.
Proof.
  apply (invalid_schema_rejected (registry := run_registry)). left. run.
Defined.

Lemma add_table_idempotent_witness :
  exists name,
    visits_schema !! "table_name" = Some (JStr name)
    /\ occurrences (table_id name)
         (add_table_to_registry (registry := run_registry) visits_schema
            (add_table_to_registry visits_schema stored).2).2 = 1.
Proof.
  apply (proj2 (proj2 (proj2 (add_table_idempotent (registry := run_registry)
                                visits_schema stored)))).
  run.
Defined.


Lemma reinitialize_clears_registry_entries_witness :
  ((reinitialize_registry (registry := run_registry)
      (add_table_to_registry visits_schema stored).2).2 !! "table_visits" = None
   /\ get_document "table_visits"
        (reinitialize_registry (add_table_to_registry visits_schema stored).2).2
      = HTTPException HTTP_404_NOT_FOUND
          "Document with id 'table_visits' not found" None)
  /\ (reinitialize_registry (add_table_to_registry visits_schema stored).2).2 !! "note-2"
     = Some {| document := "discharge letter";
               metadata := Some {[ "table_name" := SStr "" ]};
               embedding := 16 |}.
Proof.
  split.
  - eapply (proj1 (reinitialize_clears_registry_entries (registry := run_registry)
                     (add_table_to_registry visits_schema stored).2)
              "table_visits" _ "visits").
    + run.
    + run.
    + done.
    + apply (bool_decide_unpack _). run.
  - apply (proj1 (proj2 (reinitialize_clears_registry_entries (registry := run_registry)
                           (add_table_to_registry visits_schema stored).2))
             "note-2"); run.
Defined.




Lemma query_fails_on_plain_document_witness :
  coll_count (add_document (backend := run_backend) plain_note ∅).2 = 1
  /\ post_query (Some "notes of the ward round") (Some 1%Z)
       (add_document plain_note ∅).2
     = HTTPException HTTP_500_INTERNAL_SERVER_ERROR "Query failed"
         (Some (ValidationError "metadata")).
Proof.
  apply (query_fails_on_plain_document (backend := run_backend) plain_note
           "notes of the ward round" 1); first [run | lia].
Defined.

(** C1 fails as stated: a document that is not canonical and whose
    [table_name] is the empty string is still served after
    [reinitialize_registry], whichever way the store reads [$ne]. *)
Lemma reinitialize_keeps_blank_note :
  (("note-2" ∉ (canonical_ids (registry := toy_registry false)))
   /\ is_Some (toy_collection false !! "note-2")
   /\ is_success
        (get_document "note-2"
           (reinitialize_registry (registry := toy_registry false)
              (toy_collection false)).2) = true)
  /\ (("note-2" ∉ (canonical_ids (registry := toy_registry true)))
      /\ is_Some (toy_collection true !! "note-2")
      /\ is_success
           (get_document "note-2"
              (reinitialize_registry (registry := toy_registry true)
                 (toy_collection true)).2) = true).
Proof.
  repeat split; first [apply (bool_decide_unpack _); run | run].
Qed.



End Examples.

(** ** Documents: adding, reading, deleting, resetting *)

Section DocumentFacts.
Context {backend : Backend}.

Lemma coll_delete_ids_lookup_list (ids : list string) (c : gmap string Entry)
    (id : string) :
  coll_delete_ids ids c !! id = if decide (id ∈ ids) then None else c !! id.
Proof.
  unfold coll_delete_ids. induction ids as [|i ids IH]; cbn [foldr].
  - rewrite decide_False; [done|]. apply not_elem_of_nil.
  - destruct (decide (id = i)) as [->|Hne].
    + rewrite lookup_delete_eq, decide_True; [done|left].
    + rewrite lookup_delete_ne, IH by done.
      destruct (decide (id ∈ ids)) as [Hin|Hin].
      * rewrite decide_True; [done|by right].
      * rewrite decide_False; [done|].
        intros [?|?]%elem_of_cons; done.
Qed.

Lemma add_document_state (request : AddDocumentRequest) (c : gmap string Entry) :
  (add_document request c).2
  = match embedding_model_encode (req_document request), c !! req_id request with
    | Some v, None =>
        <[req_id request :=
            {| document := req_document request;
               metadata := metadata_or_none (req_metadata request);
               embedding := v |}]> c
    | _, _ => c
    end.
Proof.
  unfold add_document, coll_add.
  destruct (embedding_model_encode (req_document request)) as [v|]; [|done].
  cbn [snd]. by destruct (c !! req_id request).
Qed.

Lemma reset_collection_eq (c : gmap string Entry) :
  reset_collection c
  = (Success HTTP_200_OK
       {| reset_message := "Collection reset successfully";
          documents_deleted := coll_count c |}, ∅).
Proof.
  unfold reset_collection, coll_get_all, coll_count.
  rewrite <- (length_map_to_list c), <- (length_fmap fst (map_to_list c)).
  destruct ((map_to_list c).*1) as [|i ids] eqn:Hids.
  - apply fmap_nil_inv, map_to_list_empty_iff in Hids. by subst c.
  - do 2 f_equal. apply map_eq. intros id.
    rewrite coll_delete_ids_lookup_list, lookup_empty, <- Hids.
    case_decide as Hin; [done|].
    destruct (c !! id) as [e|] eqn:Hid; [|done].
    exfalso. apply Hin, list_elem_of_fmap. exists (id, e).
    split; [done|]. by apply elem_of_map_to_list.
Qed.

(** X1.  [reset_collection] answers 200 with the number of entries that were
    stored and leaves the collection empty: every document is then reported
    as not found and [collection_info] counts none. *)
Theorem reset_collection_empties (settings : Settings) (c : gmap string Entry) :
  reset_collection c
  = (Success HTTP_200_OK
       {| reset_message := "Collection reset successfully";
          documents_deleted := coll_count c |}, ∅)
  /\ (forall id,
        get_document id (reset_collection c).2
        = HTTPException HTTP_404_NOT_FOUND
            ("Document with id '" +:+ id +:+ "' not found") None)
  /\ collection_info settings (reset_collection c).2
     = Success HTTP_200_OK
         {| collection_name := CHROMA_COLLECTION_NAME settings;
            document_count := 0;
            embedding_model := EMBEDDING_MODEL settings;
            persist_directory := CHROMA_PERSIST_DIRECTORY settings |}.
Proof.
  rewrite reset_collection_eq. cbn [snd]. split; [done|]. split; [|done].
  intros id. unfold get_document, coll_get. by rewrite lookup_empty.
Qed.



(** X4.  After [delete_document] the id is reported as not found, every other
    id is read as before, and the count drops by one exactly when the id
    was stored. *)
Theorem delete_then_get_document (doc_id : string) (c : gmap string Entry) :
  get_document doc_id (delete_document doc_id c).2
  = HTTPException HTTP_404_NOT_FOUND
      ("Document with id '" +:+ doc_id +:+ "' not found") None
  /\ (forall id, id <> doc_id ->
        get_document id (delete_document doc_id c).2 = get_document id c)
  /\ coll_count (delete_document doc_id c).2
     = match c !! doc_id with
       | Some _ => pred (coll_count c)
       | None => coll_count c
       end
  /\ (is_Some (c !! doc_id) -> 0 < coll_count c).
Proof.
  cbn [delete_document snd]. rewrite coll_delete_ids_one.
  unfold get_document, coll_get, coll_count. split; [|split; [|split]].
  - by rewrite lookup_delete_eq.
  - intros id Hid. by rewrite lookup_delete_ne.
  - rewrite map_size_delete. by destruct (c !! doc_id).
  - intros [e He]. destruct (decide (size c = 0)) as [Hz|Hz]; [|lia].
    apply map_size_empty_iff in Hz. subst c. by rewrite lookup_empty in He.
Qed.

(** X5.  Adding a document under an id that is not stored and deleting it again
    gives back the collection as it was. *)
Theorem add_then_delete_document (request : AddDocumentRequest)
    (c : gmap string Entry) :
  c !! req_id request = None ->
  (delete_document (req_id request) (add_document request c).2).2 = c.
Proof.
  intros Hnew. cbn [delete_document snd].
  rewrite coll_delete_ids_one, add_document_state, Hnew.
  destruct (embedding_model_encode (req_document request)).
  - rewrite delete_insert_eq. by apply delete_id.
  - by apply delete_id.
Qed.

(** X6.  Deleting the same document twice leaves what deleting it once leaves,
    and two deletions, of documents or of tables, give the same collection
    in either order. *)
Theorem delete_idempotent_commutes (a b : string) (c : gmap string Entry) :
  (delete_document a (delete_document a c).2).2 = (delete_document a c).2
  /\ (delete_document a (delete_document b c).2).2
     = (delete_document b (delete_document a c).2).2
  /\ (delete_table a (delete_document b c).2).2
     = (delete_document b (delete_table a c).2).2.
Proof.
  cbn [delete_document delete_table snd]. rewrite !coll_delete_ids_one.
  split; [|split].
  - apply delete_id, lookup_delete_eq.
  - apply delete_delete.
  - apply delete_delete.
Qed.

End DocumentFacts.

(** ** Queries: when they succeed *)

Section QuerySuccessFacts.
Context {backend : Backend}.




(** X9.  The request model accepts a query body exactly when the text is given
    and [n_results], 3 when it is left out, lies in [1, 20]; the accepted
    request carries the text and that number unchanged. *)
Theorem QueryRequest_validate_accepts (body_query : option string)
    (body_n_results : option Z) (request : QueryRequest) :
  QueryRequest_validate body_query body_n_results = inr request
  <-> body_query = Some (query request)
      /\ n_results request = default 3%Z body_n_results
      /\ (1 <= n_results request <= 20)%Z.
Proof.
  unfold QueryRequest_validate. destruct body_query as [text|].
  2: { split; [done|]. by intros [[=] _]. }
  set (k := default 3%Z body_n_results).
  destruct request as [text' k']. cbn [query n_results].
  destruct (Z.leb_spec 1 k), (Z.leb_spec k 20); cbn [andb]; split.
  all: try (intros [= <- <-]; repeat split; done).
  all: try (intros ([= <-] & -> & Hk); first [done | lia]).
  all: try done.
Qed.

End QuerySuccessFacts.

(** ** Starting, reinitializing and resetting *)

Section StartupFacts.
Context {backend : Backend} {registry : Registry}.

(** What initialization writes is selected by the filter of the clear
    step. *)
Lemma initialize_from_added (schemas : list SchemaObject)
    (c : gmap string Entry) (id : string) (e : Entry) :
  (initialize_from schemas c).2 !! id = Some e ->
  c !! id = Some e \/ where_matches registry_filter e = true.
Proof.
  revert c. induction schemas as [|schema rest IH]; intros c; [by left|].
  cbn [initialize_from].
  destruct (_create_document_from_schema schema) as [err|d] eqn:Henc; [by left|].
  destruct (c !! doc_id d) as [e'|] eqn:Hd; [apply IH|].
  unfold add_table_to_registry. rewrite Henc.
  destruct (embedding_model_encode (doc_text d)) as [v|]; [|by left].
  intros [Hc|Hm]%IH; [|by right].
  unfold coll_upsert in Hc. destruct (decide (doc_id d = id)) as [Heq|Hne].
  - right. rewrite Heq, lookup_insert_eq in Hc. injection Hc as <-.
    apply encode_inr in Henc as (name & _ & Hname & ->).
    rewrite registry_filter_matches. unfold metadata_get.
    cbn [metadata doc_metadata mbind option_bind].
    rewrite lookup_insert_eq. by destruct (String.eqb_spec name "").
  - rewrite lookup_insert_ne in Hc by done. by left.
Qed.

Lemma initialize_from_twice (schemas : list SchemaObject) (c : gmap string Entry) :
  initialize_from schemas (initialize_from schemas c).2
  = initialize_from schemas c.
Proof.
  revert c. induction schemas as [|schema rest IH]; intros c; [done|].
  cbn [initialize_from].
  destruct (_create_document_from_schema schema) as [err|d] eqn:Henc; [done|].
  destruct (c !! doc_id d) as [e'|] eqn:Hd.
  { rewrite (initialize_from_keeps rest c (doc_id d) e' Hd). apply IH. }
  unfold add_table_to_registry. rewrite Henc.
  destruct (embedding_model_encode (doc_text d)) as [v|] eqn:Hv.
  - erewrite initialize_from_keeps; [apply IH|].
    unfold coll_upsert. apply lookup_insert_eq.
  - cbn [snd]. by rewrite Hd.
Qed.

Lemma clear_registry_unmatched (c : gmap string Entry) (id : string) (e : Entry) :
  clear_registry c !! id = Some e -> where_matches registry_filter e = false.
Proof.
  rewrite clear_registry_lookup. destruct (c !! id) as [e0|]; [|done].
  destruct (where_matches registry_filter e0) eqn:Hm; [done|].
  by intros [= <-].
Qed.

Lemma clear_after_initialize (schemas : list SchemaObject) (c : gmap string Entry) :
  (forall id e, c !! id = Some e -> where_matches registry_filter e = false) ->
  clear_registry (initialize_from schemas c).2 = c.
Proof.
  intros Hc. apply map_eq. intros id. rewrite clear_registry_lookup.
  destruct ((initialize_from schemas c).2 !! id) as [e|] eqn:Hafter.
  - destruct (c !! id) as [e0|] eqn:Hid.
    + rewrite (initialize_from_keeps schemas c id e0 Hid) in Hafter.
      injection Hafter as <-. by rewrite (Hc id e0 Hid).
    + apply initialize_from_added in Hafter as [Hid'|Hm]; [congruence|].
      by rewrite Hm.
  - destruct (c !! id) as [e0|] eqn:Hid; [|done].
    by rewrite (initialize_from_keeps schemas c id e0 Hid) in Hafter.
Qed.

(** X10.  Starting the service again on the collection a start has left changes
    nothing: initialization has the same outcome and leaves the same
    collection. *)
Theorem lifespan_idempotent (c : gmap string Entry) :
  lifespan (lifespan c) = lifespan c
  /\ initialize_registry (lifespan c) = initialize_registry c.
Proof.
  unfold lifespan, initialize_registry.
  by rewrite initialize_from_twice.
Qed.

(** X12.  Reinitializing twice in a row is reinitializing once: the second call
    gives the same answer and leaves the same collection. *)
Theorem reinitialize_idempotent (c : gmap string Entry) :
  reinitialize_registry (reinitialize_registry c).2 = reinitialize_registry c.
Proof.
  assert (Hstate : (reinitialize_registry c).2
                   = (initialize_from ALL_SCHEMAS (clear_registry c)).2).
  { unfold reinitialize_registry, initialize_registry.
    by destruct (initialize_from ALL_SCHEMAS (clear_registry c)). }
  assert (Hclear : clear_registry (reinitialize_registry c).2 = clear_registry c).
  { rewrite Hstate. apply clear_after_initialize, clear_registry_unmatched. }
  unfold reinitialize_registry at 1. by rewrite Hclear.
Qed.

(** X13.  Resetting and then reinitializing leaves exactly what initialization
    writes into an empty collection, and every id stored then is canonical. *)
Theorem reset_then_reinitialize (c : gmap string Entry) :
  (reinitialize_registry (reset_collection c).2).2 = (initialize_registry ∅).2
  /\ forall id,
       is_Some ((reinitialize_registry (reset_collection c).2).2 !! id) ->
       id ∈ canonical_ids.
Proof.
  assert (Hstate : (reinitialize_registry (reset_collection c).2).2
                   = (initialize_registry ∅).2).
  { rewrite reset_collection_eq. cbn [snd].
    unfold reinitialize_registry, clear_registry, coll_delete_where.
    rewrite map_filter_empty.
    by destruct (initialize_registry ∅). }
  split; [done|]. intros id [e He]. rewrite Hstate in He.
  apply initialize_from_origin in He as [He|Hin].
  - by rewrite lookup_empty in He.
  - by apply canonical_ids_spec.
Qed.

(** X11.  Starting the service removes and changes nothing that is stored, and
    whatever it adds is stored under a canonical id; the count never
    drops. *)
Theorem lifespan_preserves (c : gmap string Entry) :
  (forall id e, c !! id = Some e -> lifespan c !! id = Some e)
  /\ (forall id, is_Some (lifespan c !! id) ->
        is_Some (c !! id) \/ id ∈ canonical_ids)
  /\ coll_count c <= coll_count (lifespan c).
Proof.
  unfold lifespan, initialize_registry.
  assert (Hkeep : forall id e,
            c !! id = Some e -> (initialize_from ALL_SCHEMAS c).2 !! id = Some e)
    by (intros id e; apply initialize_from_keeps).
  split; [done|]. split.
  - intros id [e [He|Hin]%initialize_from_origin]; [left; by eexists|].
    right. by apply canonical_ids_spec.
  - unfold coll_count. apply map_subseteq_size, map_subseteq_spec, Hkeep.
Qed.

(** X15.  [add_table] answers success exactly when the registry manager
    succeeds.  The answer then names the table, [get_document] finds the
    entry under the table's id with the table's name in its metadata, and
    [delete_table] removes it again, giving back the collection as it was
    when the table was not stored before. *)
Theorem add_table_round_trip (request : TableSchemaRequest)
    (c : gmap string Entry) :
  (is_success (add_table request c).1 = true
   <-> (add_table_to_registry (table_schema request) c).1 = inr tt)
  /\ forall name,
       table_schema request !! "table_name" = Some (JStr name) ->
       is_success (add_table request c).1 = true ->
       (add_table request c).1
       = Success HTTP_201_CREATED
           {| message := "Table '" +:+ name +:+ "' added successfully";
              subject := JStr name |}
       /\ (exists e,
             get_document (table_id name) (add_table request c).2
             = Success HTTP_200_OK
                 {| body_id := table_id name;
                    body_document := document e;
                    body_metadata := metadata e |}
             /\ metadata_get "table_name" e = Some (SStr name))
       /\ get_document (table_id name) (delete_table name (add_table request c).2).2
          = HTTPException HTTP_404_NOT_FOUND
              ("Document with id '" +:+ table_id name +:+ "' not found") None
       /\ (c !! table_id name = None ->
           (delete_table name (add_table request c).2).2 = c).
Proof.
  unfold add_table.
  destruct (add_table_to_registry (table_schema request) c) as [[err|[]] c'] eqn:Hadd.
  { cbn [fst]. split; [done|]. by intros name _ [=]. }
  apply add_table_to_registry_ok in Hadd as (d & v & Henc & Hv & ->).
  apply encode_inr in Henc as (name & Hname & Hne & ->).
  rewrite Hname. cbn [fst snd doc_id doc_text doc_metadata py_str].
  split; [done|]. intros name' [= <-] _. split; [done|].
  unfold get_document, coll_get, coll_upsert, delete_table. cbn [snd].
  rewrite coll_delete_ids_one, lookup_delete_eq, lookup_insert_eq.
  split; [|split; [done|]].
  - eexists. split; [reflexivity|]. unfold metadata_get.
    cbn [metadata mbind option_bind]. apply lookup_insert_eq.
  - intros Hnew. rewrite delete_insert_eq. by apply delete_id.
Qed.

End StartupFacts.

(** ** The client's base address *)

Section ClientFacts.

Lemma append_nil_l (s : string) : EmptyString +:+ s = s.
Proof. reflexivity. Qed.

Lemma append_cons (a : ascii) (s t : string) :
  String a s +:+ t = String a (s +:+ t).
Proof. reflexivity. Qed.

Lemma rstrip_slash_cons (a : ascii) (rest : string) :
  rstrip_slash (String a rest)
  = match rstrip_slash rest with
    | EmptyString =>
        if Ascii.eqb a "/"%char then EmptyString else String a EmptyString
    | String b kept => String a (String b kept)
    end.
Proof. reflexivity. Qed.

Lemma app_slash_nonempty (p : string) : p +:+ "/" <> EmptyString.
Proof. by destruct p. Qed.

Lemma rstrip_slash_slashes (n : nat) : rstrip_slash (slashes n) = EmptyString.
Proof.
  induction n as [|n IH]; [done|].
  change (slashes (S n)) with (String "/"%char (slashes n)).
  by rewrite rstrip_slash_cons, IH.
Qed.

Lemma rstrip_slash_app_slashes (s : string) (n : nat) :
  rstrip_slash (s +:+ slashes n) = rstrip_slash s.
Proof.
  induction s as [|a rest IH].
  - rewrite append_nil_l. apply rstrip_slash_slashes.
  - by rewrite append_cons, !rstrip_slash_cons, IH.
Qed.

Lemma rstrip_slash_split (s : string) :
  exists n, s = rstrip_slash s +:+ slashes n.
Proof.
  induction s as [|a rest [n IH]]; [by exists 0|].
  rewrite rstrip_slash_cons.
  revert IH. destruct (rstrip_slash rest) as [|b kept]; intros IH.
  - rewrite append_nil_l in IH.
    destruct (Ascii.eqb_spec a "/"%char) as [->|Hne].
    + exists (S n). by rewrite append_nil_l, IH.
    + exists n. by rewrite append_cons, append_nil_l, IH.
  - exists n. by rewrite append_cons, <- IH.
Qed.

Lemma rstrip_slash_end (s p : string) : rstrip_slash s <> p +:+ "/".
Proof.
  revert p. induction s as [|a rest IH]; intros p.
  - intros Heq. by apply (app_slash_nonempty p).
  - rewrite rstrip_slash_cons. destruct (rstrip_slash rest) as [|b kept].
    + destruct (Ascii.eqb_spec a "/"%char) as [->|Hne].
      * intros Heq. by apply (app_slash_nonempty p).
      * destruct p as [|x p'].
        -- rewrite append_nil_l. by intros [= ->].
        -- rewrite append_cons. intros [= _ Heq].
           by apply (app_slash_nonempty p').
    + destruct p as [|x p'].
      * rewrite append_nil_l. by intros [=].
      * rewrite append_cons. intros [= _ Heq]. by apply (IH p').
Qed.

(** X14.  A client built from an address with slashes at its end is the client
    built from the address without them, so both form the same requests;
    the base address it keeps is the given one less the slashes it ends in,
    and never ends in a slash; the timeout is 30 seconds unless given. *)
Theorem client_base_url (url : string) (n : nat) (seconds : option Z) :
  Client.__init__ (url +:+ slashes n) seconds = Client.__init__ url seconds
  /\ (exists m,
        url = Client.base_url (Client.__init__ url seconds) +:+ slashes m)
  /\ (forall p, Client.base_url (Client.__init__ url seconds) <> p +:+ "/")
  /\ Client.timeout (Client.__init__ url seconds) = default 30%Z seconds.
Proof.
  unfold Client.__init__. cbn [Client.base_url Client.timeout].
  split; [by rewrite rstrip_slash_app_slashes|].
  split; [apply rstrip_slash_split|].
  split; [apply rstrip_slash_end|done].
Qed.

End ClientFacts.

(** ** More of the service on the small instance *)

Section MoreExamples.
Local Existing Instances run_backend run_registry.

Local Ltac run := vm_compute; first [reflexivity | by eexists | done].



Lemma delete_then_get_document_witness :
  get_document "note-2" (delete_document "note-1" stored).2
  = get_document "note-2" stored
  /\ 0 < coll_count stored.
Proof.
  split.
  - apply (proj1 (proj2 (delete_then_get_document (backend := run_backend)
                           "note-1" stored)) "note-2").
    done.
  - apply (proj2 (proj2 (proj2 (delete_then_get_document (backend := run_backend)
                                  "note-1" stored)))).
    run.
Defined.

Lemma add_then_delete_document_witness :
  (delete_document "note-1" (add_document plain_note (toy_tables false)).2).2
  = toy_tables false.
Proof.
  apply (add_then_delete_document (backend := run_backend) plain_note
           (toy_tables false)).
  run.
Defined.



Lemma QueryRequest_validate_accepts_witness :
  QueryRequest_validate (Some "patients") None
  = inr {| query := "patients"; n_results := 3 |}.
Proof.
  apply (proj2 (QueryRequest_validate_accepts (Some "patients") None
                  {| query := "patients"; n_results := 3 |})).
  repeat split; first [reflexivity | cbn; lia].
Defined.

Lemma reset_then_reinitialize_witness :
  "table_patients" ∈ canonical_ids (registry := run_registry).
Proof.
  apply (proj2 (reset_then_reinitialize (registry := run_registry) stored)
           "table_patients").
  run.
Defined.

Lemma client_base_url_witness :
  Client.__init__ ("http://localhost:8000" +:+ slashes 2) None
  = Client.__init__ "http://localhost:8000" None
  /\ Client.base_url (Client.__init__ "http://localhost:8000//" None)
     <> "http://localhost:8000" +:+ "/".
Proof.
  split.
  - exact (proj1 (client_base_url "http://localhost:8000" 2 None)).
  - exact (proj1 (proj2 (proj2 (client_base_url "http://localhost:8000//" 0 None)))
             "http://localhost:8000").
Defined.

Lemma lifespan_preserves_witness :
  lifespan (registry := run_registry) stored !! "note-1" = stored !! "note-1".
Proof.
  destruct (stored !! "note-1") as [e|] eqn:Hnote; [|by vm_compute in Hnote].
  exact (proj1 (lifespan_preserves (registry := run_registry) stored) "note-1" e Hnote).
Defined.

Lemma add_table_round_trip_witness :
  (add_table (registry := run_registry) {| table_schema := visits_schema |} stored).1
  = Success HTTP_201_CREATED
      {| message := "Table 'visits' added successfully"; subject := JStr "visits" |}
  /\ (delete_table "visits"
        (add_table {| table_schema := visits_schema |} stored).2).2 = stored.
Proof.
  destruct (proj2 (add_table_round_trip (registry := run_registry)
                     {| table_schema := visits_schema |} stored)
              "visits" ltac:(run) ltac:(run)) as (Hbody & _ & _ & Hback).
  split; [exact Hbody|]. apply Hback. run.
Defined.

End MoreExamples.
